(** * Dependency extraction tool: import extraction, filtering and mapping

    A shallow embedding of the functions of
    [src/tools/extract_dependencies.py]: [extract_imports_from_code],
    [extract_imports_regex], [extract_imports_from_notebook],
    [extract_imports_from_python_file], [filter_third_party] and
    [map_to_pip_names], with the tables [STDLIB_MODULES] and
    [IMPORT_TO_PIP].  The driver [main], which finds the files and prints
    the report, is not part of the development.

    - Python [str] values are Rocq strings, one character for each code
      point: the texts are those whose code points are below 256.  The
      character classes of [str.strip] and of the regular expressions
      ([\s], [\w]) are Python's classes on these code points.
    - Python [set] values of strings are [gset string]; the two module-level
      tables are a [gset string] and a [gmap string string].
    - A call that may raise returns a [result]; the [except] clauses test
      the class of the exception as [isinstance] does.  [print] appends a
      line to an explicit output log.
    - [ast.parse], [open] and [json.load] belong to the Python runtime: the
      functions that call them take them as section variables. *)

From Stdlib Require Import Ascii String List ZArith Lia.
From stdpp Require Import gmap strings list fin_maps fin_sets pretty.

#[local] Set Warnings "-register-all,-clear-no-such-hyp".

(* ===================================================================== *)
(** ** Python strings *)
(* ===================================================================== *)

Module PyStr.

(** The line feed, written ["\n"] in the source. *)
Definition LF : ascii := ascii_of_nat 10.
Definition nl : string := String LF "".

(** [s.split(sep)] for a one-character separator: the maximal pieces
    between the occurrences of [sep]; always at least one piece. *)
Fixpoint split (sep : ascii) (s : string) : list string :=
  match s with
  | EmptyString => [EmptyString]
  | String c s' =>
      if decide (c = sep) then EmptyString :: split sep s'
      else match split sep s' with
           | piece :: pieces => String c piece :: pieces
           | [] => [String c EmptyString]
           end
  end.

(** [str.isspace] on one character: TAB, LF, VT, FF, CR, the four
    separators FS, GS, RS, US, the space, NEL (133) and the no-break space
    (160). *)
Definition isspace (c : ascii) : bool :=
  let n := nat_of_ascii c in
  ((9 <=? n)%nat && (n <=? 13)%nat) || ((28 <=? n)%nat && (n <=? 32)%nat)
  || (n =? 133)%nat || (n =? 160)%nat.

Fixpoint lstrip (s : string) : string :=
  match s with
  | EmptyString => EmptyString
  | String c s' => if isspace c then lstrip s' else s
  end.

Fixpoint rstrip (s : string) : string :=
  match s with
  | EmptyString => EmptyString
  | String c s' =>
      match rstrip s' with
      | EmptyString => if isspace c then EmptyString else String c EmptyString
      | r => String c r
      end
  end.

(** [s.strip()] with no argument. *)
Definition strip (s : string) : string := rstrip (lstrip s).

(** Truthiness of a string: only the empty string is false. *)
Definition truthy (s : string) : bool :=
  match s with EmptyString => false | String _ _ => true end.

End PyStr.

(* ===================================================================== *)
(** ** Regular expressions used by the fallback matcher *)
(* ===================================================================== *)

Module Re.

(** [\w]: the alphanumeric characters and the underscore.  Below 128
    these are the digits and the letters; from 128 to 255 they are the
    ordinal indicators (170, 186), the superscript digits (178, 179, 185),
    the micro sign (181), the fractions (188 to 190) and the letters (192 to
    255 without the two operators 215 and 247). *)
Definition word_char (c : ascii) : bool :=
  let n := nat_of_ascii c in
  ((48 <=? n)%nat && (n <=? 57)%nat) || ((65 <=? n)%nat && (n <=? 90)%nat)
  || ((97 <=? n)%nat && (n <=? 122)%nat) || (n =? 95)%nat
  || (n =? 170)%nat || ((178 <=? n)%nat && (n <=? 179)%nat) || (n =? 181)%nat
  || ((185 <=? n)%nat && (n <=? 186)%nat) || ((188 <=? n)%nat && (n <=? 190)%nat)
  || ((192 <=? n)%nat && (n <=? 214)%nat) || ((216 <=? n)%nat && (n <=? 246)%nat)
  || ((248 <=? n)%nat && (n <=? 255)%nat).

(** The class [[\w\.]]. *)
Definition path_char (c : ascii) : bool :=
  word_char c || bool_decide (c = "."%char).

(** Matchers in continuation-passing style: a matcher consumes a prefix
    of the subject and hands the remainder to the continuation; a [None]
    from the continuation makes the matcher try its next alternative, as
    the backtracking engine of [re] does. *)

(** A literal. *)
Fixpoint lit {R} (l : string) (s : string) (k : string → option R) : option R :=
  match l with
  | EmptyString => k s
  | String a l' =>
      match s with
      | String c s' => if decide (a = c) then lit l' s' k else None
      | EmptyString => None
      end
  end.

(** The greedy loop of [cls+] after [taken] has been consumed: first one
    more character, then, should the rest of the pattern fail, stop here. *)
Fixpoint more {R} (cls : ascii → bool) (taken : string) (s : string)
    (k : string → string → option R) : option R :=
  match s with
  | String c s' =>
      if cls c then
        match more cls (taken +:+ String c "") s' k with
        | Some r => Some r
        | None => k taken s
        end
      else k taken s
  | EmptyString => k taken s
  end.

(** [cls+]: one character of the class, then the greedy loop.  The
    continuation receives the matched text and the remainder. *)
Definition plus {R} (cls : ascii → bool) (s : string)
    (k : string → string → option R) : option R :=
  match s with
  | String c s' => if cls c then more cls (String c "") s' k else None
  | EmptyString => None
  end.

(** [re.match(r'^import\s+([\w\.]+)', line)]: group 1 of the match. *)
Definition pattern1 (line : string) : option string :=
  lit "import" line (λ r1,
  plus PyStr.isspace r1 (λ _ r2,
  plus path_char r2 (λ g _, Some g))).

(** [re.match(r'^from\s+([\w\.]+)\s+import', line)]: group 1 of the match. *)
Definition pattern2 (line : string) : option string :=
  lit "from" line (λ r1,
  plus PyStr.isspace r1 (λ _ r2,
  plus path_char r2 (λ g r3,
  plus PyStr.isspace r3 (λ _ r4,
  lit "import" r4 (λ _, Some g))))).

End Re.

(* ===================================================================== *)
(** ** The module-level tables *)
(* ===================================================================== *)

(** [STDLIB_MODULES]. *)
Definition STDLIB_MODULES : gset string :=
  list_to_set [
    "abc"; "aifc"; "argparse"; "array"; "ast"; "asynchat"; "asyncio"; "asyncore";
    "atexit"; "audioop"; "base64"; "bdb"; "binascii"; "binhex"; "bisect";
    "builtins"; "bz2"; "calendar"; "cgi"; "cgitb"; "chunk"; "cmath"; "cmd";
    "code"; "codecs"; "codeop"; "collections"; "colorsys"; "compileall";
    "concurrent"; "configparser"; "contextlib"; "contextvars"; "copy"; "copyreg";
    "cProfile"; "crypt"; "csv"; "ctypes"; "curses"; "dataclasses"; "datetime";
    "dbm"; "decimal"; "difflib"; "dis"; "distutils"; "doctest"; "email";
    "encodings"; "enum"; "errno"; "faulthandler"; "fcntl"; "filecmp"; "fileinput";
    "fnmatch"; "fractions"; "ftplib"; "functools"; "gc"; "getopt"; "getpass";
    "gettext"; "glob"; "graphlib"; "grp"; "gzip"; "hashlib"; "heapq"; "hmac";
    "html"; "http"; "idlelib"; "imaplib"; "imghdr"; "imp"; "importlib"; "inspect";
    "io"; "ipaddress"; "itertools"; "json"; "keyword"; "lib2to3"; "linecache";
    "locale"; "logging"; "lzma"; "mailbox"; "mailcap"; "marshal"; "math";
    "mimetypes"; "mmap"; "modulefinder"; "multiprocessing"; "netrc"; "nis";
    "nntplib"; "numbers"; "operator"; "optparse"; "os"; "ossaudiodev"; "pathlib";
    "pdb"; "pickle"; "pickletools"; "pipes"; "pkgutil"; "platform"; "plistlib";
    "poplib"; "posix"; "posixpath"; "pprint"; "profile"; "pstats"; "pty"; "pwd";
    "py_compile"; "pyclbr"; "pydoc"; "queue"; "quopri"; "random"; "re";
    "readline"; "reprlib"; "resource"; "rlcompleter"; "runpy"; "sched"; "secrets";
    "select"; "selectors"; "shelve"; "shlex"; "shutil"; "signal"; "site";
    "smtpd"; "smtplib"; "sndhdr"; "socket"; "socketserver"; "spwd"; "sqlite3";
    "ssl"; "stat"; "statistics"; "string"; "stringprep"; "struct"; "subprocess";
    "sunau"; "symtable"; "sys"; "sysconfig"; "syslog"; "tabnanny"; "tarfile";
    "telnetlib"; "tempfile"; "termios"; "test"; "textwrap"; "threading"; "time";
    "timeit"; "tkinter"; "token"; "tokenize"; "trace"; "traceback"; "tracemalloc";
    "tty"; "turtle"; "turtledemo"; "types"; "typing"; "unicodedata"; "unittest";
    "urllib"; "uu"; "uuid"; "venv"; "warnings"; "wave"; "weakref"; "webbrowser";
    "winreg"; "winsound"; "wsgiref"; "xdrlib"; "xml"; "xmlrpc"; "zipapp";
    "zipfile"; "zipimport"; "zlib"; "_thread";
    "typing_extensions"
  ].

(** [IMPORT_TO_PIP], as the association list of the dict display. *)
Definition IMPORT_TO_PIP_items : list (string * string) :=
  [ ("googleapiclient", "google-api-python-client");
    ("dotenv", "python-dotenv");
    ("sklearn", "scikit-learn");
    ("PIL", "Pillow");
    ("cv2", "opencv-python");
    ("yaml", "PyYAML");
    ("bs4", "beautifulsoup4");
    ("google", "google-api-python-client");
    ("youtube_transcript_api", "youtube-transcript-api") ].

Definition IMPORT_TO_PIP : gmap string string :=
  list_to_map IMPORT_TO_PIP_items.

(* ===================================================================== *)
(** ** The fallback matcher, the filter and the mapper *)
(* ===================================================================== *)

(** [path.split('.')[0]]; the list that [split] returns is never empty. *)
Definition top_module (path : string) : string :=
  match PyStr.split "." path with
  | first :: _ => first
  | [] => ""
  end.

(** One iteration of the loop of [extract_imports_regex]. *)
Definition regex_line (imports : gset string) (line : string) : gset string :=
  let line := PyStr.strip line in
  let imports :=
    match Re.pattern1 line with
    | Some g => imports ∪ {[ top_module g ]}
    | None => imports
    end in
  match Re.pattern2 line with
  | Some g => imports ∪ {[ top_module g ]}
  | None => imports
  end.

Definition extract_imports_regex (code : string) : gset string :=
  foldl regex_line ∅ (PyStr.split PyStr.LF code).

Definition filter_third_party (imports : gset string) : gset string :=
  filter (λ imp, imp ∉ STDLIB_MODULES) imports.

(** [IMPORT_TO_PIP.get(imp, imp)]. *)
Definition pip_name (imp : string) : string :=
  default imp (IMPORT_TO_PIP !! imp).

Definition map_to_pip_names (imports : gset string) : gset string :=
  foldl (λ pip_names imp, pip_names ∪ {[ pip_name imp ]}) ∅ (elements imports).

(* ===================================================================== *)
(** ** Exceptions and results *)
(* ===================================================================== *)

(** The exception classes that the calls of this script can raise, with
    the part of Python's class hierarchy that its [except] clauses see. *)
Inductive exn_class :=
  | Exception
  | SyntaxError | IndentationError
  | ValueError | UnicodeDecodeError | JSONDecodeError
  | OSError | FileNotFoundError | PermissionError | IsADirectoryError
  | TypeError | AttributeError
  | RuntimeError | RecursionError
  | MemoryError.

(** The direct base class of a class ([None] above [Exception]). *)
Definition base (c : exn_class) : option exn_class :=
  match c with
  | Exception => None
  | IndentationError => Some SyntaxError
  | UnicodeDecodeError | JSONDecodeError => Some ValueError
  | FileNotFoundError | PermissionError | IsADirectoryError => Some OSError
  | RecursionError => Some RuntimeError
  | SyntaxError | ValueError | OSError | TypeError | AttributeError
  | RuntimeError | MemoryError => Some Exception
  end.

Global Instance exn_class_eq_dec : EqDecision exn_class.
Proof. solve_decision. Defined.

(** [issubclass(c, d)]; the hierarchy above is three classes deep. *)
Definition issubclass (c d : exn_class) : bool :=
  bool_decide (c = d)
  || match base c with
     | Some c1 =>
         bool_decide (c1 = d)
         || match base c1 with
            | Some c2 => bool_decide (c2 = d)
            | None => false
            end
     | None => false
     end.

(** A raised exception: its class and [str(e)]. *)
Record exn := Exn { exn_cls : exn_class; exn_str : string }.

(** [isinstance(e, classes)] for the tuple of classes of an [except] clause. *)
Definition caught_by (classes : list exn_class) (e : exn) : bool :=
  existsb (issubclass (exn_cls e)) classes.

Inductive result (A : Type) :=
  | Ok (a : A)
  | Raise (e : exn).
Arguments Ok {A} a.
Arguments Raise {A} e.

(** Sequencing of calls that may raise: [x ← r; k] runs [k] on the value
    of [r], and raises what [r] raises. *)
Global Instance result_ret : MRet result := λ A a, Ok a.
Global Instance result_bind : MBind result := λ A B k r,
  match r with
  | Ok a => k a
  | Raise e => Raise e
  end.

(* ===================================================================== *)
(** ** Syntax trees *)
(* ===================================================================== *)

(** [ast.alias]: one target of an import statement. *)
Record alias := Alias { alias_name : string; alias_asname : option string }.

(** The nodes of a tree, as far as [extract_imports_from_code] tells them
    apart: [ast.Import], [ast.ImportFrom], the [ast.alias] nodes below
    them, and every other node with its child nodes. *)
Inductive node :=
  | Import (names : list alias)
  | ImportFrom (module : option string) (names : list alias) (level : nat)
  | AliasNode (a : alias)
  | Other (children : list node).

(** [ast.iter_child_nodes]. *)
Definition iter_child_nodes (n : node) : list node :=
  match n with
  | Import names => AliasNode <$> names
  | ImportFrom _ names _ => AliasNode <$> names
  | AliasNode _ => []
  | Other children => children
  end.

(** The number of nodes of a tree. *)
Fixpoint node_count (n : node) : nat :=
  match n with
  | Import names => S (length names)
  | ImportFrom _ names _ => S (length names)
  | AliasNode _ => 1
  | Other children => S (list_sum (node_count <$> children))
  end.

(** The loop of [ast.walk]: pop the left end of the queue, append the
    children of the popped node at the right end, yield the node.  Every
    iteration yields one node, so [fuel] bounds the number of iterations. *)
Fixpoint walk_queue (fuel : nat) (todo : list node) : list node :=
  match fuel, todo with
  | S fuel', n :: rest => n :: walk_queue fuel' (rest ++ iter_child_nodes n)
  | _, _ => []
  end.

(** [ast.walk(tree)], with one unit of fuel for each node of the tree. *)
Definition walk (tree : node) : list node :=
  walk_queue (node_count tree) [tree].

(** The body of the loop over [ast.walk(tree)]. *)
Definition visit (imports : gset string) (n : node) : gset string :=
  match n with
  | Import names =>
      foldl (λ imports a, imports ∪ {[ top_module (alias_name a) ]}) imports names
  | ImportFrom module _ _ =>
      match module with
      | Some m => if PyStr.truthy m then imports ∪ {[ top_module m ]} else imports
      | None => imports
      end
  | _ => imports
  end.

(* ===================================================================== *)
(** ** Extraction results and JSON documents *)
(* ===================================================================== *)

(** An extraction result: the dict with the keys ["file"] and ["imports"]. *)
Record extraction := Extraction { file : string; imports : gset string }.

(** Parsed JSON documents, as [json.load] returns them: [None], a [bool],
    an [int], a [float] (kept as its literal), a [str], a [list], or a
    [dict], given by the list of its items. *)
Inductive json :=
  | JNull
  | JBool (b : bool)
  | JInt (n : Z)
  | JFloat (literal : string)
  | JStr (s : string)
  | JList (items : list json)
  | JDict (items : list (string * json)).

(** Lookup of a key among the items of a dict. *)
Fixpoint dict_lookup (items : list (string * json)) (key : string) : option json :=
  match items with
  | [] => None
  | (k, v) :: items' => if decide (k = key) then Some v else dict_lookup items' key
  end.

(** [obj == s] for a string [s]. *)
Definition py_eq_str (obj : json) (s : string) : bool :=
  match obj with
  | JStr s' => bool_decide (s' = s)
  | _ => false
  end.

(** [type(obj).__name__]. *)
Definition type_name (obj : json) : string :=
  match obj with
  | JNull => "NoneType"
  | JBool _ => "bool"
  | JInt _ => "int"
  | JFloat _ => "float"
  | JStr _ => "str"
  | JList _ => "list"
  | JDict _ => "dict"
  end.

(** [obj.get(key, dflt)]: only a dict has the method. *)
Definition py_get (obj : json) (key : string) (dflt : json) : result json :=
  match obj with
  | JDict items => Ok (default dflt (dict_lookup items key))
  | _ => Raise (Exn AttributeError
                  ("'" +:+ type_name obj +:+ "' object has no attribute 'get'"))
  end.

(** The values that [for x in obj] iterates over: the items of a list, the
    keys of a dict, the characters of a string; nothing else is iterable. *)
Definition py_iter (obj : json) : result (list json) :=
  match obj with
  | JList items => Ok items
  | JDict items => Ok ((λ kv, JStr kv.1) <$> items)
  | JStr s => Ok ((λ c, JStr (String c "")) <$> list_ascii_of_string s)
  | _ => Raise (Exn TypeError ("'" +:+ type_name obj +:+ "' object is not iterable"))
  end.

(** [''.join(source)] from the item of index [i] on: every item has to be a
    string. *)
Fixpoint py_join_from (i : nat) (source : list json) : result string :=
  match source with
  | [] => Ok ""
  | JStr s :: source' => rest ← py_join_from (S i) source'; Ok (s +:+ rest)
  | item :: _ =>
      Raise (Exn TypeError ("sequence item " +:+ pretty i
                            +:+ ": expected str instance, "
                            +:+ type_name item +:+ " found"))
  end.

(** [''.join(source)] for a list [source]. *)
Definition py_join (source : list json) : result string := py_join_from 0 source.

(** A [for] loop whose body may raise. *)
Fixpoint for_each {A S} (body : S → A → result S) (s : S) (l : list A) : result S :=
  match l with
  | [] => Ok s
  | x :: l' => s' ← body s x; for_each body s' l'
  end.

(** The printed lines, oldest first. *)
Definition output := list string.

(* ===================================================================== *)
(** ** The import extractor and the two adapters *)
(* ===================================================================== *)

Section Extractor.

(** [ast.parse]: the tree of the module, or the exception it raises. *)
Variable ast_parse : string → result node.

Definition extract_imports_from_code (code : string) : result (gset string) :=
  match ast_parse code with
  | Raise e =>
      if caught_by [SyntaxError] e then Ok (extract_imports_regex code)
      else Raise e
  | Ok tree => Ok (foldl visit ∅ (walk tree))
  end.

(** [extract_imports_from_code(code)] for a [code] out of a JSON document:
    [ast.parse] refuses what is not a string. *)
Definition extract_imports_from_value (code : json) : result (gset string) :=
  match code with
  | JStr s => extract_imports_from_code s
  | _ => Raise (Exn TypeError "compile() arg 1 must be a string, bytes or AST object")
  end.

(** The body of the loop over the cells of a notebook. *)
Definition notebook_cell (imports : gset string) (cell : json) : result (gset string) :=
  cell_type ← py_get cell "cell_type" JNull;
  if py_eq_str cell_type "code" then
    source ← py_get cell "source" (JList []);
    code ← match source with
           | JList parts => s ← py_join parts; Ok (JStr s)
           | _ => Ok source
           end;
    cell_imports ← extract_imports_from_value code;
    Ok (imports ∪ cell_imports)
  else Ok imports.

(** [open(path, 'r', encoding='utf-8')] followed by [f.read()]. *)
Variable read_text : string → result string.
(** [open(path, 'r', encoding='utf-8')] followed by [json.load(f)]. *)
Variable load_json : string → result json.

(** The paths are [pathlib.Path] values; a path stands here for the text
    that [str(path)] gives. *)
Definition extract_imports_from_notebook (notebook_path : string)
    : output * result extraction :=
  match load_json notebook_path with
  | Raise e =>
      if caught_by [JSONDecodeError; FileNotFoundError] e then
        ([ "  Warning: Could not parse " +:+ notebook_path +:+ ": " +:+ exn_str e ],
         Ok (Extraction notebook_path ∅))
      else ([], Raise e)
  | Ok notebook =>
      ([],
       cells ← py_get notebook "cells" (JList []);
       cells ← py_iter cells;
       imports ← for_each notebook_cell ∅ cells;
       Ok (Extraction notebook_path imports))
  end.

Definition extract_imports_from_python_file (file_path : string)
    : output * result extraction :=
  match read_text file_path with
  | Raise e =>
      if caught_by [FileNotFoundError; UnicodeDecodeError] e then
        ([ "  Warning: Could not read " +:+ file_path +:+ ": " +:+ exn_str e ],
         Ok (Extraction file_path ∅))
      else ([], Raise e)
  | Ok code =>
      ([], imports ← extract_imports_from_code code; Ok (Extraction file_path imports))
  end.

End Extractor.

(* ===================================================================== *)
(** ** Notions used to state the properties *)
(* ===================================================================== *)

(** [x] is the first dot-separated segment of the dotted path [p]: it has
    no dot, and [p] is [x] alone or [x], a dot and the rest of the path. *)
Definition first_segment (x p : string) : Prop :=
  Forall (λ c, c ≠ "."%char) (list_ascii_of_string x)
  ∧ (p = x ∨ ∃ rest, p = x +:+ "." +:+ rest).

(** The longest prefix of [s] made of characters of the class, and what
    follows it. *)
Fixpoint span (cls : ascii → bool) (s : string) : string * string :=
  match s with
  | String c s' =>
      if cls c then let '(p, r) := span cls s' in (String c p, r) else ("", s)
  | EmptyString => ("", "")
  end.

(** A non-empty string of characters of the class. *)
Definition run (cls : ascii → bool) (s : string) : Prop :=
  s ≠ "" ∧ Forall (λ c, cls c = true) (list_ascii_of_string s).

(** [s] does not start with a character of the class. *)
Definition stops (cls : ascii → bool) (s : string) : Prop :=
  match s with
  | String c _ => cls c = false
  | EmptyString => True
  end.

(** The last character of [s], if there is one, is not of the class. *)
Definition stops_at_end (cls : ascii → bool) (s : string) : Prop :=
  ∀ s' c, s = s' +:+ String c "" → cls c = false.

(** [m] is the node [n] or one of its descendants. *)
Inductive subnode : node → node → Prop :=
  | subnode_refl n : subnode n n
  | subnode_child n c m : c ∈ iter_child_nodes n → subnode m c → subnode m n.

(** The dotted path [p] is an import target of the node [n]: the name of an
    alias of a plain import, or the named module of a from-import. *)
Definition node_target (n : node) (p : string) : Prop :=
  match n with
  | Import names => ∃ a, a ∈ names ∧ alias_name a = p
  | ImportFrom (Some m) _ _ => m = p ∧ p ≠ ""
  | _ => False
  end.

(** The import targets of a tree are those of its nodes. *)
Definition import_target (tree : node) (p : string) : Prop :=
  ∃ n, subnode n tree ∧ node_target n p.

(** The cell sequence of a notebook document: the list under its top-level
    key ["cells"], or no cell when the key is absent. *)
Definition notebook_cells (notebook : json) (cells : list json) : Prop :=
  ∃ items, notebook = JDict items
    ∧ (dict_lookup items "cells" = Some (JList cells)
       ∨ (dict_lookup items "cells" = None ∧ cells = [])).

(** A cell record whose type tag is not ["code"]. *)
Definition non_code_cell (cell : json) : Prop :=
  ∃ fields, cell = JDict fields ∧ dict_lookup fields "cell_type" ≠ Some (JStr "code").

(* ===================================================================== *)
(** ** Sample inputs *)
(* ===================================================================== *)

(** The text of the first end-to-end scenario, and the tree that CPython
    builds for it:
    [Module(body=[Import(names=[alias(name='numpy', asname='np')]),
    ImportFrom(module='sklearn.model_selection',
    names=[alias(name='train_test_split')], level=0)])]. *)
Definition text_numpy_sklearn : string :=
  "import numpy as np" +:+ PyStr.nl
  +:+ "from sklearn.model_selection import train_test_split" +:+ PyStr.nl.

Definition tree_numpy_sklearn : node :=
  Other [ Import [Alias "numpy" (Some "np")];
          ImportFrom (Some "sklearn.model_selection") [Alias "train_test_split" None] 0 ].

(** The malformed text of the last end-to-end scenario. *)
Definition text_malformed : string :=
  "def f(:" +:+ PyStr.nl +:+ "  import requests".

(** A malformed text with a relative import. *)
Definition text_relative : string :=
  "def f(:" +:+ PyStr.nl +:+ "from . import x".

Definition sample_syntax_error : exn := Exn SyntaxError "invalid syntax".

(** An instance of [ast.parse] for the examples: it has the tree of
    [text_numpy_sklearn] and rejects every other text, the two malformed
    sample texts among them. *)
Definition sample_parse (code : string) : result node :=
  if decide (code = text_numpy_sklearn) then Ok tree_numpy_sklearn
  else Raise sample_syntax_error.




(** A file system with one source file and one file that is not UTF-8. *)
Definition sample_read_text (path : string) : result string :=
  if decide (path = "src/mod.py") then Ok text_numpy_sklearn
  else if decide (path = "src/latin1.py") then
    Raise (Exn UnicodeDecodeError "'utf-8' codec can't decode byte 0xe9 in position 0")
  else Raise (Exn FileNotFoundError ("[Errno 2] No such file or directory: '" +:+ path +:+ "'")).

(** What [open] raises for the missing file [src/gone.py]. *)
Definition sample_missing : exn :=
  Exn FileNotFoundError "[Errno 2] No such file or directory: 'src/gone.py'".

(** A notebook with a markdown cell and a raw cell. *)
Definition sample_cells : list json :=
  [ JDict [ ("cell_type", JStr "markdown");
            ("source", JList [JStr "# Title"; JStr "import os"]) ];
    JDict [ ("cell_type", JStr "raw"); ("source", JStr "import sys") ] ].

Definition sample_notebook : json :=
  JDict [ ("cells", JList sample_cells); ("nbformat", JInt 4) ].

Definition sample_load_json (path : string) : result json :=
  if decide (path = "notebooks/notes.ipynb") then Ok sample_notebook
  else Raise (Exn FileNotFoundError ("[Errno 2] No such file or directory: '" +:+ path +:+ "'")).

(* ===================================================================== *)
(** ** The definitions on sample inputs *)
(* ===================================================================== *)

Example split_dotted_path : PyStr.split "." "a.b.c" = ["a"; "b"; "c"].
Proof. reflexivity. Qed.

Example split_empty_text : PyStr.split PyStr.LF "" = [""].
Proof. reflexivity. Qed.

Example split_lines_malformed :
  PyStr.split PyStr.LF text_malformed = ["def f(:"; "  import requests"].
Proof. reflexivity. Qed.

Example strip_indented_line : PyStr.strip "  import requests" = "import requests".
Proof. reflexivity. Qed.

(** The no-break space is white space, the letter e with an acute accent
    is a word character. *)
Example strip_no_break_space :
  PyStr.strip (String (ascii_of_nat 160) "import x" +:+ String (ascii_of_nat 133) "")
  = "import x".
Proof. reflexivity. Qed.

Example pattern1_latin_letter :
  Re.pattern1 ("import caf" +:+ String (ascii_of_nat 233) " as c")
  = Some ("caf" +:+ String (ascii_of_nat 233) "").
Proof. reflexivity. Qed.

Example pattern1_with_alias : Re.pattern1 "import numpy as np" = Some "numpy".
Proof. reflexivity. Qed.

Example pattern1_dotted : Re.pattern1 "import os.path, sys" = Some "os.path".
Proof. reflexivity. Qed.

Example pattern1_needs_white_space : Re.pattern1 "importlib" = None.
Proof. reflexivity. Qed.

Example pattern1_not_at_start : Re.pattern1 "  import requests" = None.
Proof. reflexivity. Qed.

Example pattern2_dotted :
  Re.pattern2 "from sklearn.model_selection import train_test_split"
  = Some "sklearn.model_selection".
Proof. reflexivity. Qed.

Example pattern2_relative : Re.pattern2 "from . import x" = Some ".".
Proof. reflexivity. Qed.

Example pattern2_needs_import : Re.pattern2 "from a.b imp" = None.
Proof. reflexivity. Qed.

(** The nodes of [import a.b] followed by [if x: from c import d] come in
    the order of [ast.walk]: Module, Import, If, alias, Name, ImportFrom,
    Load, alias. *)
Example walk_breadth_first :
  walk (Other [ Import [Alias "a.b" None];
                Other [ Other [Other []];
                        ImportFrom (Some "c") [Alias "d" None] 0 ] ])
  = [ Other [ Import [Alias "a.b" None];
              Other [ Other [Other []];
                      ImportFrom (Some "c") [Alias "d" None] 0 ] ];
      Import [Alias "a.b" None];
      Other [ Other [Other []]; ImportFrom (Some "c") [Alias "d" None] 0 ];
      AliasNode (Alias "a.b" None);
      Other [Other []];
      ImportFrom (Some "c") [Alias "d" None] 0;
      Other [];
      AliasNode (Alias "d" None) ].
Proof. reflexivity. Qed.

Example issubclass_indentation : issubclass IndentationError SyntaxError = true.
Proof. reflexivity. Qed.

Example issubclass_value_error : issubclass ValueError SyntaxError = false.
Proof. reflexivity. Qed.

(** The second end-to-end scenario: both names are standard-library names. *)
Example filter_os_sys : filter_third_party {[ "os"; "sys" ]} = ∅.
Proof. vm_compute. reflexivity. Qed.

(** A file that is read and parsed. *)
Example python_file_read :
  extract_imports_from_python_file sample_parse sample_read_text "src/mod.py"
  = ([], Ok (Extraction "src/mod.py" {[ "numpy"; "sklearn" ]})).
Proof. vm_compute. reflexivity. Qed.

(** A code cell whose source is a list of fragments. *)
Example notebook_code_cell :
  notebook_cell sample_parse ∅
    (JDict [ ("cell_type", JStr "code");
             ("source", JList [ JStr "def f(:"; JStr PyStr.nl; JStr "  import requests" ]) ])
  = Ok {[ "requests" ]}.
Proof. vm_compute. reflexivity. Qed.

(** A list of fragments with an item that is not a string. *)
Example join_not_a_string :
  py_join [JStr "a"; JInt 1; JNull]
  = Raise (Exn TypeError "sequence item 1: expected str instance, int found").
Proof. reflexivity. Qed.

Example iterate_a_number :
  py_iter (JFloat "1.5") = Raise (Exn TypeError "'float' object is not iterable").
Proof. reflexivity. Qed.

(** A document that is not a dict has no [get]. *)
Example notebook_not_a_dict :
  extract_imports_from_notebook sample_parse (λ _, Ok (JList [])) "x.ipynb"
  = ([], Raise (Exn AttributeError "'list' object has no attribute 'get'")).
Proof. reflexivity. Qed.

(* ===================================================================== *)
(** ** Strings and first segments *)
(* ===================================================================== *)

Lemma app_nil_string (t : string) : "" +:+ t = t.
Proof. reflexivity. Qed.

Lemma app_cons_string (c : ascii) (s t : string) :
  String c s +:+ t = String c (s +:+ t).
Proof. reflexivity. Qed.

(** Pushes the appends of the context under the leading characters. *)
Ltac push_app := rewrite ?app_cons_string, ?app_nil_string in *.

Lemma split_first (sep : ascii) (s : string) :
  ∃ x xs, PyStr.split sep s = x :: xs
    ∧ Forall (λ c, c ≠ sep) (list_ascii_of_string x)
    ∧ (s = x ∨ ∃ rest, s = x +:+ String sep rest).
Proof.
  induction s as [|c s (x & xs & Hs & Hx & Hrest)]; simpl.
  - exists "", []. repeat split; [constructor | by left].
  - destruct (decide (c = sep)) as [->|Hne].
    + exists "", (x :: xs). rewrite Hs. repeat split; [constructor|]. right. by exists s.
    + rewrite Hs. exists (String c x), xs. repeat split.
      * by constructor.
      * destruct Hrest as [->|[rest ->]]; [by left|right; by exists rest].
Qed.

(** [p.split('.')[0]] is the first segment of [p]. *)
Lemma top_module_first_segment (p : string) : first_segment (top_module p) p.
Proof.
  unfold top_module, first_segment.
  destruct (split_first "." p) as (x & xs & -> & Hx & Hp). done.
Qed.

(** A path has one first segment only. *)
Lemma first_segment_nil (x : string) : first_segment x "" → x = "".
Proof.
  intros [_ [H|[r H]]]; [done|].
  destruct x; discriminate H.
Qed.

Lemma first_segment_cons (x : string) (c : ascii) (p : string) :
  first_segment x (String c p) →
  (c = "."%char ∧ x = "") ∨ (c ≠ "."%char ∧ ∃ x', x = String c x' ∧ first_segment x' p).
Proof.
  intros [Hx Hp]. destruct x as [|d x].
  - left. destruct Hp as [Hp|[r Hp]]; [discriminate Hp|].
    push_app. by simplify_eq.
  - right. apply Forall_cons in Hx as [Hd Hx].
    assert (c = d ∧ (p = x ∨ ∃ rest, p = x +:+ "." +:+ rest)) as [-> Hp'].
    { destruct Hp as [Hp|[r Hp]]; push_app; simplify_eq; eauto. }
    split; [done|]. exists x. by split.
Qed.

Lemma first_segment_unique (x y p : string) :
  first_segment x p → first_segment y p → x = y.
Proof.
  revert x y. induction p as [|c p IH]; intros x y Hx Hy.
  - apply first_segment_nil in Hx, Hy. congruence.
  - apply first_segment_cons in Hx, Hy.
    destruct Hx as [[? ->]|[? (x' & -> & Hx)]], Hy as [[? ->]|[? (y' & -> & Hy)]];
      try done.
    f_equal. eauto.
Qed.

(* ===================================================================== *)
(** ** The two patterns *)
(* ===================================================================== *)

Lemma app_empty_r (s : string) : s +:+ "" = s.
Proof. induction s as [|c s IH]; push_app; [done|by rewrite IH]. Qed.

Lemma app_assoc_string (s t u : string) : (s +:+ t) +:+ u = s +:+ t +:+ u.
Proof. induction s as [|c s IH]; push_app; [done|by rewrite IH]. Qed.

Lemma span_app (cls : ascii → bool) (s : string) :
  s = (span cls s).1 +:+ (span cls s).2.
Proof.
  induction s as [|c s IH]; simpl; [done|].
  destruct (cls c); [|done]. destruct (span cls s) as [p r]; simpl in *.
  push_app. by rewrite <-IH.
Qed.

Lemma span_all (cls : ascii → bool) (s : string) :
  Forall (λ c, cls c = true) (list_ascii_of_string (span cls s).1).
Proof.
  induction s as [|c s IH]; simpl; [constructor|].
  destruct (cls c) eqn:Hc; [|constructor].
  destruct (span cls s) as [p r]; simpl in *. by constructor.
Qed.

Lemma span_stops (cls : ascii → bool) (s : string) : stops cls (span cls s).2.
Proof.
  induction s as [|c s IH]; simpl; [done|].
  destruct (cls c) eqn:Hc; [|done]. by destruct (span cls s) as [p r].
Qed.

(** The split of [span] is the only one into characters of the class and a
    remainder that does not start with one. *)
Lemma span_unique (cls : ascii → bool) (p r : string) :
  Forall (λ c, cls c = true) (list_ascii_of_string p) → stops cls r →
  span cls (p +:+ r) = (p, r).
Proof.
  induction p as [|c p IH]; intros Hp Hr; push_app.
  - destruct r as [|c r]; simpl in *; [done|by rewrite Hr].
  - apply Forall_cons in Hp as [Hc Hp]. simpl. by rewrite Hc, IH.
Qed.

(** [lstrip] drops the longest prefix of white space. *)
Lemma lstrip_span (s : string) : PyStr.lstrip s = (span PyStr.isspace s).2.
Proof.
  induction s as [|c s IH]; simpl; [done|].
  destruct (PyStr.isspace c); [|done]. rewrite IH. by destruct (span _ s).
Qed.

(** [rstrip] drops a suffix of white space and leaves no white space at
    the end. *)
Lemma rstrip_spec (s : string) :
  ∃ r, s = PyStr.rstrip s +:+ r
    ∧ Forall (λ c, PyStr.isspace c = true) (list_ascii_of_string r)
    ∧ stops_at_end PyStr.isspace (PyStr.rstrip s).
Proof.
  induction s as [|c s (r & Hs & Hr & Hend)]; simpl.
  - exists "". repeat split; [constructor|]. by intros [|??] ?.
  - destruct (PyStr.rstrip s) as [|d t] eqn:Hstrip.
    + push_app. subst s. destruct (PyStr.isspace c) eqn:Hc.
      * exists (String c r). repeat split; [by constructor|]. by intros [|??] ?.
      * exists r. repeat split; [done|].
        intros [|? [|??]] c' Heq; push_app; by simplify_eq.
    + exists r. repeat split; [by rewrite Hs at 1|done|].
      intros [|c0 s'] c' Heq; push_app; simplify_eq. by eapply Hend.
Qed.

Lemma rstrip_first (s : string) :
  stops PyStr.isspace s → stops PyStr.isspace (PyStr.rstrip s).
Proof.
  destruct s as [|c s]; simpl; [done|]. intros Hc.
  destruct (PyStr.rstrip s); by rewrite ?Hc.
Qed.

(** [strip] takes white space off both ends: what is left neither starts
    nor ends with white space. *)
Lemma strip_spec (s : string) :
  ∃ l r, s = l +:+ PyStr.strip s +:+ r
    ∧ Forall (λ c, PyStr.isspace c = true) (list_ascii_of_string l)
    ∧ Forall (λ c, PyStr.isspace c = true) (list_ascii_of_string r)
    ∧ stops PyStr.isspace (PyStr.strip s)
    ∧ stops_at_end PyStr.isspace (PyStr.strip s).
Proof.
  unfold PyStr.strip.
  destruct (rstrip_spec (PyStr.lstrip s)) as (r & Hr & Hall & Hend).
  exists (span PyStr.isspace s).1, r. repeat split; [|apply span_all|done|..|done].
  - rewrite <-Hr, lstrip_span. apply span_app.
  - apply rstrip_first. rewrite lstrip_span. apply span_stops.
Qed.

Section Greedy.

Context {R : Type} (cls : ascii → bool) (k : string → string → option R).

(** When the longest run lets the rest of the pattern match, that match is
    the result. *)
Lemma more_longest (taken s : string) (r : R) :
  k (taken +:+ (span cls s).1) (span cls s).2 = Some r →
  Re.more cls taken s k = Some r.
Proof.
  revert taken. induction s as [|c s IH]; intros taken; simpl.
  - by rewrite app_empty_r.
  - destruct (cls c); [|by rewrite app_empty_r].
    destruct (span cls s) as [p q] eqn:Hspan; simpl in *.
    intros Hk. rewrite (IH (taken +:+ String c "")); [done|].
    by rewrite app_assoc_string.
Qed.

(** When the rest of the pattern cannot match right before a character of
    the class, only the longest run is left. *)
Hypothesis k_committed : ∀ t c r, cls c = true → k t (String c r) = None.

Lemma more_committed (taken s : string) :
  Re.more cls taken s k = k (taken +:+ (span cls s).1) (span cls s).2.
Proof.
  revert taken. induction s as [|c s IH]; intros taken; simpl.
  - by rewrite app_empty_r.
  - destruct (cls c) eqn:Hc; [|by rewrite app_empty_r].
    rewrite IH, app_assoc_string. push_app.
    destruct (span cls s) as [p q]; simpl.
    destruct (k _ q); [done|]. by apply k_committed.
Qed.

Lemma plus_committed (s : string) :
  Re.plus cls s k
  = match (span cls s).1 with
    | EmptyString => None
    | p => k p (span cls s).2
    end.
Proof.
  destruct s as [|c s]; simpl; [done|].
  destruct (cls c); [|done].
  rewrite more_committed. push_app. by destruct (span cls s).
Qed.

End Greedy.

Lemma plus_group (cls : ascii → bool) (s : string) :
  Re.plus cls s (λ g _, Some g)
  = match (span cls s).1 with
    | EmptyString => None
    | p => Some p
    end.
Proof.
  destruct s as [|c s]; simpl; [done|].
  destruct (cls c); [|done].
  rewrite (more_longest cls _ _ _ (String c (span cls s).1)) by done.
  by destruct (span cls s).
Qed.

Lemma lit_spec {R} (l s : string) (k : string → option R) (r : R) :
  Re.lit l s k = Some r ↔ ∃ rest, s = l +:+ rest ∧ k rest = Some r.
Proof.
  revert s. induction l as [|a l IH]; intros s; simpl.
  - split; [eauto|by intros (rest & -> & ?)].
  - destruct s as [|c s].
    + split; [done|]. by intros (rest & ? & _).
    + destruct (decide (a = c)) as [->|Hne].
      * rewrite IH. split; intros (rest & Hs & Hk); exists rest; push_app;
          (split; [congruence|done]).
      * split; [done|]. intros (rest & Hs & _). push_app. congruence.
  Qed.

(** The two classes of the patterns have no character in common. *)
Lemma isspace_not_path_char (c : ascii) :
  PyStr.isspace c = true → Re.path_char c = false.
Proof. destruct c as [[] [] [] [] [] [] [] []]; vm_compute; congruence. Qed.

Lemma path_char_not_isspace (c : ascii) :
  Re.path_char c = true → PyStr.isspace c = false.
Proof. destruct c as [[] [] [] [] [] [] [] []]; vm_compute; congruence. Qed.

Lemma run_span (cls : ascii → bool) (s p r : string) :
  span cls s = (p, r) → p ≠ "" → s = p +:+ r ∧ run cls p ∧ stops cls r.
Proof.
  intros Hspan Hp.
  pose proof (span_app cls s) as H1. pose proof (span_all cls s) as H2.
  pose proof (span_stops cls s) as H3. rewrite Hspan in *. by repeat split.
Qed.

Lemma run_stops (cls cls' : ascii → bool) (g rest : string) :
  (∀ c, cls c = true → cls' c = false) → run cls g → stops cls' (g +:+ rest).
Proof.
  intros Hdisj [Hne Hall]. destruct g as [|c g]; [done|].
  apply Forall_cons in Hall as [Hc _]. push_app. simpl. auto.
Qed.

(** What [pattern1] matches: the word [import], white space, and the
    longest run of word characters and dots, which is the group. *)
Lemma pattern1_spec (line g : string) :
  Re.pattern1 line = Some g
  ↔ ∃ ws rest, line = "import" +:+ ws +:+ g +:+ rest
      ∧ run PyStr.isspace ws ∧ run Re.path_char g ∧ stops Re.path_char rest.
Proof.
  unfold Re.pattern1. rewrite lit_spec. split.
  - intros (r1 & -> & Hm). rewrite plus_committed in Hm.
    2:{ intros _ c r Hc. simpl. by rewrite (isspace_not_path_char c). }
    destruct (span PyStr.isspace r1) as [ws r2] eqn:Hws; simpl in Hm.
    assert (ws ≠ "") as Hne by (by destruct ws).
    replace (match ws with "" => None | String _ _ => Re.plus Re.path_char r2 (λ g _, Some g) end)
      with (Re.plus Re.path_char r2 (λ g _, Some g)) in Hm by (by destruct ws).
    rewrite plus_group in Hm.
    destruct (span Re.path_char r2) as [g' rest] eqn:Hg; simpl in Hm.
    assert (g' = g ∧ g' ≠ "") as [-> Hgne] by (destruct g'; by simplify_eq).
    apply run_span in Hws as (-> & ? & _); [|done].
    apply run_span in Hg as (-> & ? & ?); [|done].
    by exists ws, rest.
  - intros (ws & rest & -> & Hws & Hg & Hrest). eexists. split; [done|].
    rewrite plus_committed.
    2:{ intros _ c r Hc. simpl. by rewrite (isspace_not_path_char c). }
    rewrite span_unique; [|apply Hws|by eapply run_stops; [apply path_char_not_isspace|]].
    simpl. destruct Hws as [Hwne _]. destruct ws as [|w ws]; [done|].
    rewrite plus_group, span_unique; [|apply Hg|done].
    simpl. destruct Hg as [Hgne _]. by destruct g.
Qed.

Lemma import_not_space (c : ascii) (r : string) (g : string) :
  PyStr.isspace c = true → Re.lit "import" (String c r) (λ _, Some g) = None.
Proof. intros Hc. simpl. destruct (decide ("i"%char = c)) as [<-|]; [done|done]. Qed.

(** What [pattern2] matches: the word [from], white space, the longest run
    of word characters and dots, which is the group, white space again, and
    the word [import]. *)
Lemma pattern2_spec (line g : string) :
  Re.pattern2 line = Some g
  ↔ ∃ ws1 ws2 rest, line = "from" +:+ ws1 +:+ g +:+ ws2 +:+ "import" +:+ rest
      ∧ run PyStr.isspace ws1 ∧ run Re.path_char g ∧ run PyStr.isspace ws2.
Proof.
  assert (Hk1 : ∀ (t : string) c r, PyStr.isspace c = true →
    Re.plus Re.path_char (String c r) (λ g r3,
      Re.plus PyStr.isspace r3 (λ _ r4, Re.lit "import" r4 (λ _, Some g))) = None).
  { intros _ c r Hc. simpl. by rewrite (isspace_not_path_char c). }
  assert (Hk2 : ∀ (g : string) c r, Re.path_char c = true →
    Re.plus PyStr.isspace (String c r) (λ _ r4, Re.lit "import" r4 (λ _, Some g)) = None).
  { intros g' c r Hc. simpl. by rewrite (path_char_not_isspace c). }
  assert (Hk3 : ∀ (g t : string) c r, PyStr.isspace c = true →
    Re.lit "import" (String c r) (λ _, Some g) = None).
  { intros g' _ c r Hc. by apply import_not_space. }
  unfold Re.pattern2. rewrite lit_spec. split.
  - intros (r1 & -> & Hm).
    rewrite (plus_committed _ _ Hk1) in Hm.
    destruct (span PyStr.isspace r1) as [ws1 r2] eqn:Hws1; cbn [fst snd] in Hm.
    destruct ws1 as [|w1 ws1]; [done|].
    rewrite (plus_committed _ _ Hk2) in Hm.
    destruct (span Re.path_char r2) as [g' r3] eqn:Hg; cbn [fst snd] in Hm.
    destruct g' as [|c' g']; [done|].
    rewrite (plus_committed _ _ (Hk3 _)) in Hm.
    destruct (span PyStr.isspace r3) as [ws2 r4] eqn:Hws2; cbn [fst snd] in Hm.
    destruct ws2 as [|w2 ws2]; [done|].
    apply lit_spec in Hm as (rest & -> & ?). simplify_eq.
    apply run_span in Hws1 as (-> & ? & _); [|done].
    apply run_span in Hg as (-> & ? & _); [|done].
    apply run_span in Hws2 as (-> & ? & _); [|done].
    by eexists _, _, rest.
  - intros (ws1 & ws2 & rest & -> & Hws1 & Hg & Hws2). eexists. split; [done|].
    rewrite (plus_committed _ _ Hk1).
    rewrite span_unique; [|apply Hws1|by eapply run_stops; [apply path_char_not_isspace|]].
    cbn [fst snd]. destruct Hws1 as [Hne1 _]. destruct ws1 as [|w1 ws1]; [done|].
    rewrite (plus_committed _ _ Hk2).
    rewrite span_unique; [|apply Hg|by eapply run_stops; [apply isspace_not_path_char|]].
    cbn [fst snd]. destruct Hg as [Hgne _]. destruct g as [|c g]; [done|].
    rewrite (plus_committed _ _ (Hk3 _)).
    rewrite span_unique; [|apply Hws2|done].
    cbn [fst snd]. destruct Hws2 as [Hne2 _]. destruct ws2 as [|w2 ws2]; [done|].
    apply lit_spec. by exists rest.
Qed.

(* ===================================================================== *)
(** ** The fallback matcher *)
(* ===================================================================== *)

(** The loop of the fallback matcher only adds names. *)
Lemma regex_line_union (acc : gset string) (line : string) :
  regex_line acc line = acc ∪ regex_line ∅ line.
Proof.
  unfold regex_line.
  destruct (Re.pattern1 _), (Re.pattern2 _); set_solver.
Qed.

Lemma elem_of_foldl_regex_line (x : string) (lines : list string) (acc : gset string) :
  x ∈ foldl regex_line acc lines
  ↔ x ∈ acc ∨ ∃ line, line ∈ lines ∧ x ∈ regex_line ∅ line.
Proof.
  revert acc. induction lines as [|l lines IH]; intros acc; simpl.
  - set_solver.
  - rewrite IH, regex_line_union. set_solver.
Qed.

(** What the fallback matcher returns: the first segments of the groups
    that either pattern captures in a trimmed line of the text. *)
Lemma elem_of_extract_imports_regex (code x : string) :
  x ∈ extract_imports_regex code
  ↔ ∃ line g, line ∈ PyStr.split PyStr.LF code
      ∧ (Re.pattern1 (PyStr.strip line) = Some g ∨ Re.pattern2 (PyStr.strip line) = Some g)
      ∧ x = top_module g.
Proof.
  unfold extract_imports_regex. rewrite elem_of_foldl_regex_line.
  split.
  - intros [?|(line & Hl & Hx)]; [set_solver|].
    unfold regex_line in Hx.
    destruct (Re.pattern1 _) as [g1|] eqn:H1, (Re.pattern2 _) as [g2|] eqn:H2;
      set_unfold; naive_solver.
  - intros (line & g & Hl & Hg & ->). right. exists line. split; [done|].
    unfold regex_line. destruct Hg as [-> | ->].
    + destruct (Re.pattern2 _); set_solver.
    + set_solver.
Qed.

(** The fallback matcher in the words of its description: a name is
    returned when some trimmed line starts with [import], white space and a
    run of word characters and dots, or with [from], white space, such a
    run, white space and [import], and the name is the first segment of
    that run. *)
Lemma extract_imports_regex_spec (code x : string) :
  x ∈ extract_imports_regex code
  ↔ ∃ line ws g rest,
      line ∈ PyStr.split PyStr.LF code
      ∧ run PyStr.isspace ws ∧ run Re.path_char g ∧ first_segment x g
      ∧ ((PyStr.strip line = "import" +:+ ws +:+ g +:+ rest ∧ stops Re.path_char rest)
         ∨ ∃ ws', PyStr.strip line = "from" +:+ ws +:+ g +:+ ws' +:+ "import" +:+ rest
                  ∧ run PyStr.isspace ws').
Proof.
  rewrite elem_of_extract_imports_regex. split.
  - intros (line & g & Hline & [Hm|Hm] & ->).
    + apply pattern1_spec in Hm as (ws & rest & Hs & Hws & Hg & Hrest).
      exists line, ws, g, rest.
      split_and!; [done|done|done|apply top_module_first_segment|by left].
    + apply pattern2_spec in Hm as (ws & ws' & rest & Hs & Hws & Hg & Hws').
      exists line, ws, g, rest.
      split_and!; [done|done|done|apply top_module_first_segment|right; by exists ws'].
  - intros (line & ws & g & rest & Hline & Hws & Hg & Hx & Hm).
    exists line, g. split; [done|]. split.
    + destruct Hm as [[Hs Hrest]|(ws' & Hs & Hws')].
      * left. apply pattern1_spec. by exists ws, rest.
      * right. apply pattern2_spec. by exists ws, ws', rest.
    + eapply first_segment_unique; [done|apply top_module_first_segment].
Qed.

(* ===================================================================== *)
(** ** The standard-library filter and the package name mapper *)
(* ===================================================================== *)

Lemma elem_of_filter_third_party (s : gset string) (x : string) :
  x ∈ filter_third_party s ↔ x ∈ s ∧ x ∉ STDLIB_MODULES.
Proof. unfold filter_third_party. generalize STDLIB_MODULES. intros R. rewrite elem_of_filter. tauto. Qed.

Theorem filter_third_party_subset_idempotent (s : gset string) :
  filter_third_party s ⊆ s
  ∧ filter_third_party (filter_third_party s) = filter_third_party s.
Proof.
  unfold filter_third_party. generalize STDLIB_MODULES. intros R.
  split.
  - intros x Hx. by apply elem_of_filter in Hx as [_ ?].
  - apply set_eq. intros x. rewrite !elem_of_filter. tauto.
Qed.

Lemma foldl_add_image {A} (f : A → string) (l : list A) (acc : gset string) :
  foldl (λ acc x, acc ∪ {[ f x ]}) acc l = acc ∪ list_to_set (f <$> l).
Proof.
  revert acc. induction l as [|a l IH]; intros acc; simpl.
  - set_solver.
  - rewrite IH. set_solver.
Qed.

(** The loop of the mapper builds the image of its input under [pip_name]. *)
Lemma map_to_pip_names_image (s : gset string) :
  map_to_pip_names s = list_to_set (pip_name <$> elements s).
Proof. unfold map_to_pip_names. rewrite foldl_add_image. set_solver. Qed.

Lemma elem_of_map_to_pip_names (s : gset string) (y : string) :
  y ∈ map_to_pip_names s ↔ ∃ x, x ∈ s ∧ y = pip_name x.
Proof.
  rewrite map_to_pip_names_image, elem_of_list_to_set, list_elem_of_fmap.
  split; intros (x & H1 & H2); exists x.
  - by rewrite elem_of_elements in H2.
  - by rewrite elem_of_elements.
Qed.

Lemma size_list_to_set_le (l : list string) :
  (size (list_to_set l : gset string) ≤ length l)%nat.
Proof.
  induction l as [|x l IH].
  - by rewrite list_to_set_nil, size_empty.
  - rewrite list_to_set_cons, size_union_alt, size_singleton.
    assert (Hle : (size ((list_to_set l : gset string) ∖ {[x]}) ≤ size (list_to_set l : gset string))%nat).
    { apply subseteq_size. set_solver. }
    cbn [length]. lia.
Qed.

(** The dict display of the table has no key twice. *)
Lemma IMPORT_TO_PIP_keys_distinct : NoDup IMPORT_TO_PIP_items.*1.
Proof. apply (bool_decide_unpack _). vm_compute. exact I. Qed.

(** A name is either kept or replaced by a value of the table. *)
Lemma pip_name_cases (x : string) :
  (IMPORT_TO_PIP !! x = None ∧ pip_name x = x)
  ∨ IMPORT_TO_PIP !! x = Some (pip_name x).
Proof. unfold pip_name. destruct (IMPORT_TO_PIP !! x); simpl; auto. Qed.

(** No value of the table is a key of the table. *)
Lemma IMPORT_TO_PIP_values_unmapped (k v : string) :
  IMPORT_TO_PIP !! k = Some v → IMPORT_TO_PIP !! v = None.
Proof.
  assert (Hall : map_Forall (λ _ v, IMPORT_TO_PIP !! v = None) IMPORT_TO_PIP).
  { apply (bool_decide_unpack _). vm_compute. exact I. }
  intros Hk. exact (Hall k v Hk).
Qed.

Lemma pip_name_idempotent (x : string) : pip_name (pip_name x) = pip_name x.
Proof.
  destruct (pip_name_cases x) as [[_ Hx]|Hx].
  - by rewrite Hx.
  - apply IMPORT_TO_PIP_values_unmapped in Hx.
    unfold pip_name at 1. by rewrite Hx.
Qed.

(** C6: every name in the output of [map_to_pip_names] is a name of the
    input or a value of the table; the output has at most as many names as
    the input; a name of the input that is not a key of the table is in the
    output unchanged. *)
Theorem map_to_pip_names_spec (s : gset string) :
  (∀ y, y ∈ map_to_pip_names s → y ∈ s ∨ ∃ k, IMPORT_TO_PIP !! k = Some y)
  ∧ (size (map_to_pip_names s) ≤ size s)%nat
  ∧ (∀ x, x ∈ s → IMPORT_TO_PIP !! x = None → x ∈ map_to_pip_names s).
Proof.
  split; [|split].
  - intros y (x & Hx & ->)%elem_of_map_to_pip_names.
    destruct (pip_name_cases x) as [[_ ->]|Hk]; [by left|right; eauto].
  - rewrite map_to_pip_names_image.
    etrans; [apply size_list_to_set_le|].
    by rewrite length_fmap.
  - intros x Hx Hnone. apply elem_of_map_to_pip_names. exists x. split; [done|].
    unfold pip_name. by rewrite Hnone.
Qed.

(** C10: mapping twice gives what mapping once gives, since no value of
    the table is one of its keys. *)
Theorem map_to_pip_names_idempotent (s : gset string) :
  map_to_pip_names (map_to_pip_names s) = map_to_pip_names s.
Proof.
  apply set_eq. intros y. rewrite !elem_of_map_to_pip_names. split.
  - intros (x & (x0 & Hx0 & ->)%elem_of_map_to_pip_names & ->).
    exists x0. by rewrite pip_name_idempotent.
  - intros (x & Hx & ->). exists (pip_name x). split.
    + apply elem_of_map_to_pip_names. eauto.
    + by rewrite pip_name_idempotent.
Qed.

(* ===================================================================== *)
(** ** Walking a tree *)
(* ===================================================================== *)

Lemma list_sum_alias_nodes (names : list alias) :
  list_sum (node_count <$> (AliasNode <$> names)) = length names.
Proof. induction names as [|a names IH]; csimpl; [done|by rewrite IH]. Qed.

Lemma node_count_children (n : node) :
  node_count n = S (list_sum (node_count <$> iter_child_nodes n)).
Proof. destruct n; csimpl; by rewrite ?list_sum_alias_nodes. Qed.

Lemma subnode_inv (m n : node) :
  subnode m n ↔ m = n ∨ ∃ c, c ∈ iter_child_nodes n ∧ subnode m c.
Proof.
  split.
  - inversion 1; subst; eauto.
  - intros [->|(c & Hc & Hm)]; [constructor|by econstructor].
Qed.

(** With fuel for every node that is in the queue or below it, the loop
    yields the nodes of the queue and all their descendants. *)
Lemma elem_of_walk_queue (fuel : nat) (todo : list node) (n : node) :
  list_sum (node_count <$> todo) ≤ fuel →
  n ∈ walk_queue fuel todo ↔ ∃ q, q ∈ todo ∧ subnode n q.
Proof.
  revert todo. induction fuel as [|fuel IH]; intros [|q rest] Hfuel;
    try change (list_sum (node_count <$> q :: rest))
          with (node_count q + list_sum (node_count <$> rest)) in Hfuel;
    try rewrite node_count_children in Hfuel; cbn [walk_queue].
  - set_solver.
  - lia.
  - set_solver.
  - rewrite elem_of_cons, IH.
    + split.
      * intros [->|(q' & [Hq'|Hq']%elem_of_app & Hn)].
        -- exists q. split; [set_solver|constructor].
        -- exists q'. split; [set_solver|done].
        -- exists q. split; [set_solver|by econstructor].
      * intros (q' & [->|Hq']%elem_of_cons & Hn).
        -- apply subnode_inv in Hn as [->|(c & Hc & Hn)]; [by left|].
           right. exists c. split; [|done]. apply elem_of_app. by right.
        -- right. exists q'. split; [|done]. apply elem_of_app. by left.
    + rewrite fmap_app, list_sum_app. lia.
Qed.

(** The loop yields one node for each node that is in the queue or below
    it, and never runs short of fuel before. *)
Lemma length_walk_queue (fuel : nat) (todo : list node) :
  list_sum (node_count <$> todo) ≤ fuel →
  length (walk_queue fuel todo) = list_sum (node_count <$> todo).
Proof.
  revert todo. induction fuel as [|fuel IH]; intros [|q rest] Hfuel;
    try change (list_sum (node_count <$> q :: rest))
          with (node_count q + list_sum (node_count <$> rest)) in *;
    try rewrite node_count_children in *; cbn [walk_queue length]; try done.
  - lia.
  - rewrite IH; rewrite fmap_app, list_sum_app; lia.
Qed.

Lemma length_walk (tree : node) : length (walk tree) = node_count tree.
Proof. unfold walk. rewrite length_walk_queue; simpl; lia. Qed.

(** [ast.walk] yields every node of the tree. *)
Lemma elem_of_walk (tree n : node) : n ∈ walk tree ↔ subnode n tree.
Proof.
  unfold walk. rewrite elem_of_walk_queue by (simpl; lia).
  split; [intros (q & Hq & Hn); apply list_elem_of_singleton in Hq; by subst|].
  intros Hn. exists tree. split; [set_solver|done].
Qed.

Lemma elem_of_visit (acc : gset string) (n : node) (x : string) :
  x ∈ visit acc n ↔ x ∈ acc ∨ ∃ p, node_target n p ∧ x = top_module p.
Proof.
  destruct n as [names|[m|] names level|a|children]; simpl.
  - rewrite (foldl_add_image (λ a, top_module (alias_name a))).
    rewrite elem_of_union, elem_of_list_to_set, list_elem_of_fmap.
    split; [intros [?|(a & -> & Ha)]|intros [?|(p & (a & Ha & <-) & ->)]]; eauto 6.
  - destruct m as [|c m]; simpl.
    + split; [by left|]. intros [?|(p & [<- Hp] & _)]; done.
    + rewrite elem_of_union, elem_of_singleton.
      split; [intros [? | ->]|intros [?|(p & [<- Hp] & ->)]]; eauto.
  - split; [by left|]. by intros [?|(p & [] & _)].
  - split; [by left|]. by intros [?|(p & [] & _)].
  - split; [by left|]. by intros [?|(p & [] & _)].
Qed.

Lemma elem_of_foldl_visit (nodes : list node) (acc : gset string) (x : string) :
  x ∈ foldl visit acc nodes
  ↔ x ∈ acc ∨ ∃ n p, n ∈ nodes ∧ node_target n p ∧ x = top_module p.
Proof.
  revert acc. induction nodes as [|n nodes IH]; intros acc; simpl.
  - set_solver.
  - rewrite IH, elem_of_visit. set_unfold. naive_solver.
Qed.

Lemma first_segment_top_module (x p : string) :
  first_segment x p ↔ x = top_module p.
Proof.
  split.
  - intros Hx. eapply first_segment_unique; [done|apply top_module_first_segment].
  - intros ->. apply top_module_first_segment.
Qed.

(* ===================================================================== *)
(** ** The import extractor *)
(* ===================================================================== *)

Section Extractor_properties.

Variable ast_parse : string → result node.

(** C1: when the text parses, a name is in the extracted set exactly
    when it is the first dot-separated segment of an import target of the
    tree: of the dotted path of a target of a plain import, or of the named
    module of a from-import.  So no extracted name has a dot, and none is a
    later segment of a path only; a from-import without a named module
    contributes nothing. *)
Theorem extract_first_segments (t : string) (tree : node) :
  ast_parse t = Ok tree →
  ∃ s, extract_imports_from_code ast_parse t = Ok s
       ∧ ∀ x, x ∈ s ↔ ∃ p, import_target tree p ∧ first_segment x p.
Proof.
  intros Hparse. unfold extract_imports_from_code. rewrite Hparse.
  eexists. split; [done|]. intros x.
  rewrite elem_of_foldl_visit. setoid_rewrite elem_of_walk.
  setoid_rewrite first_segment_top_module. unfold import_target.
  set_unfold. naive_solver.
Qed.

(** The [except SyntaxError] branch. *)
Lemma extract_on_syntax_error (code : string) (e : exn) :
  ast_parse code = Raise e →
  issubclass (exn_cls e) SyntaxError = true →
  extract_imports_from_code ast_parse code = Ok (extract_imports_regex code).
Proof.
  intros Hparse He. unfold extract_imports_from_code, caught_by. rewrite Hparse.
  simpl. by rewrite He.
Qed.



(** C3, as the code has it: the text fails to parse, the fallback matcher
    trims the line ["  import requests"] before it matches it, and the
    extracted set is [{"requests"}]. *)
Theorem extract_malformed_indented (e : exn) :
  ast_parse text_malformed = Raise e →
  issubclass (exn_cls e) SyntaxError = true →
  extract_imports_from_code ast_parse text_malformed = Ok {[ "requests" ]}.
Proof.
  intros Hparse He. rewrite (extract_on_syntax_error _ e) by done.
  assert (extract_imports_regex text_malformed = {[ "requests" ]}) as ->
    by (vm_compute; reflexivity).
  done.
Qed.

(** C4: the text of two imports yields [{"numpy", "sklearn"}]; the filter
    leaves that set unchanged; the mapper turns it into
    [{"numpy", "scikit-learn"}]. *)
Theorem extract_filter_map_numpy_sklearn :
  ast_parse text_numpy_sklearn = Ok tree_numpy_sklearn →
  extract_imports_from_code ast_parse text_numpy_sklearn = Ok {[ "numpy"; "sklearn" ]}
  ∧ filter_third_party {[ "numpy"; "sklearn" ]} = {[ "numpy"; "sklearn" ]}
  ∧ map_to_pip_names {[ "numpy"; "sklearn" ]} = {[ "numpy"; "scikit-learn" ]}.
Proof.
  intros Hparse. unfold extract_imports_from_code. rewrite Hparse.
  repeat split; vm_compute; reflexivity.
Qed.

(** C9: a text that fails to parse and has a line that trims to
    [from . import x] makes the fallback matcher, and so the extractor,
    return a set with the empty string in it. *)
Theorem fallback_yields_empty_name (t line : string) (e : exn) :
  ast_parse t = Raise e →
  issubclass (exn_cls e) SyntaxError = true →
  line ∈ PyStr.split PyStr.LF t →
  PyStr.strip line = "from . import x" →
  Re.pattern2 (PyStr.strip line) = Some "."
  ∧ top_module "." = ""
  ∧ "" ∈ extract_imports_regex t
  ∧ extract_imports_from_code ast_parse t = Ok (extract_imports_regex t).
Proof.
  intros Hparse He Hline Hstrip.
  assert (Hp : Re.pattern2 (PyStr.strip line) = Some ".") by (by rewrite Hstrip).
  repeat split; [done|..].
  - apply elem_of_extract_imports_regex. exists line, ".". auto.
  - by apply (extract_on_syntax_error _ e).
Qed.

End Extractor_properties.

Lemma extract_first_segments_witness :
  sample_parse text_numpy_sklearn = Ok tree_numpy_sklearn
  ∧ ∃ s, extract_imports_from_code sample_parse text_numpy_sklearn = Ok s
         ∧ ∀ x, x ∈ s ↔ ∃ p, import_target tree_numpy_sklearn p ∧ first_segment x p.
Proof.
  split; [reflexivity|].
  apply (extract_first_segments sample_parse text_numpy_sklearn tree_numpy_sklearn).
  reflexivity.
Defined.



(** C3 as the claim states it fails: for a parser that rejects the text,
    the extracted set is not empty. *)
Lemma extract_malformed_not_empty :
  ¬ (∀ (ast_parse : string → result node) (e : exn),
       ast_parse text_malformed = Raise e →
       issubclass (exn_cls e) SyntaxError = true →
       extract_imports_from_code ast_parse text_malformed = Ok ∅).
Proof.
  intros Hclaim.
  specialize (Hclaim sample_parse sample_syntax_error eq_refl eq_refl).
  vm_compute in Hclaim. discriminate Hclaim.
Qed.

Lemma extract_malformed_indented_witness :
  sample_parse text_malformed = Raise sample_syntax_error
  ∧ issubclass (exn_cls sample_syntax_error) SyntaxError = true
  ∧ extract_imports_from_code sample_parse text_malformed = Ok {[ "requests" ]}.
Proof.
  split; [reflexivity|]. split; [reflexivity|].
  apply (extract_malformed_indented sample_parse sample_syntax_error); reflexivity.
Defined.

Lemma extract_filter_map_numpy_sklearn_witness :
  sample_parse text_numpy_sklearn = Ok tree_numpy_sklearn
  ∧ extract_imports_from_code sample_parse text_numpy_sklearn = Ok {[ "numpy"; "sklearn" ]}
  ∧ filter_third_party {[ "numpy"; "sklearn" ]} = {[ "numpy"; "sklearn" ]}
  ∧ map_to_pip_names {[ "numpy"; "sklearn" ]} = {[ "numpy"; "scikit-learn" ]}.
Proof.
  split; [reflexivity|].
  apply (extract_filter_map_numpy_sklearn sample_parse). reflexivity.
Defined.

Lemma fallback_yields_empty_name_witness :
  sample_parse text_relative = Raise sample_syntax_error
  ∧ issubclass (exn_cls sample_syntax_error) SyntaxError = true
  ∧ "from . import x" ∈ PyStr.split PyStr.LF text_relative
  ∧ PyStr.strip "from . import x" = "from . import x"
  ∧ Re.pattern2 (PyStr.strip "from . import x") = Some "."
  ∧ top_module "." = ""
  ∧ "" ∈ extract_imports_regex text_relative
  ∧ extract_imports_from_code sample_parse text_relative
    = Ok (extract_imports_regex text_relative).
Proof.
  assert (Hline : "from . import x" ∈ PyStr.split PyStr.LF text_relative).
  { apply list_elem_of_In. vm_compute. auto. }
  split; [reflexivity|]. split; [reflexivity|]. split; [exact Hline|].
  split; [reflexivity|].
  apply (fallback_yields_empty_name sample_parse text_relative "from . import x"
           sample_syntax_error); [reflexivity|reflexivity|exact Hline|reflexivity].
Defined.

(* ===================================================================== *)
(** ** The file and notebook adapters *)
(* ===================================================================== *)

Lemma py_eq_str_true (obj : json) (s : string) :
  py_eq_str obj s = true ↔ obj = JStr s.
Proof.
  destruct obj; simpl; try (split; [discriminate|congruence]).
  rewrite bool_decide_eq_true. split; congruence.
Qed.

Section Adapter_properties.

Variable ast_parse : string → result node.
Variable read_text : string → result string.
Variable load_json : string → result json.

(** The loop body leaves the running set alone at a cell that is not a
    code cell. *)
Lemma notebook_cell_non_code (imports : gset string) (cell : json) :
  non_code_cell cell → notebook_cell ast_parse imports cell = Ok imports.
Proof.
  intros (fields & -> & Htype). unfold notebook_cell. simpl.
  destruct (py_eq_str _ "code") eqn:Heq; [|done].
  apply py_eq_str_true in Heq.
  destruct (dict_lookup fields "cell_type") as [v|]; simpl in Heq; congruence.
Qed.

Lemma for_each_non_code (imports : gset string) (cells : list json) :
  Forall non_code_cell cells →
  for_each (notebook_cell ast_parse) imports cells = Ok imports.
Proof.
  induction 1 as [|cell cells Hcell _ IH]; simpl; [done|].
  by rewrite notebook_cell_non_code.
Qed.

(** A notebook that is missing or is not JSON gives a warning and an empty
    set. *)
Lemma unparsable_notebook_yields_empty (notebook_path : string) (e : exn) :
  load_json notebook_path = Raise e →
  issubclass (exn_cls e) JSONDecodeError = true
    ∨ issubclass (exn_cls e) FileNotFoundError = true →
  extract_imports_from_notebook ast_parse load_json notebook_path
  = ([ "  Warning: Could not parse " +:+ notebook_path +:+ ": " +:+ exn_str e ],
     Ok (Extraction notebook_path ∅)).
Proof.
  intros Hload He. unfold extract_imports_from_notebook, caught_by.
  rewrite Hload. simpl. destruct He as [-> | ->]; [done|].
  by rewrite orb_true_r.
Qed.

(** Any other exception of the read leaves the file adapter. *)
Lemma unreadable_file_other_error (file_path : string) (e : exn) :
  read_text file_path = Raise e →
  caught_by [FileNotFoundError; UnicodeDecodeError] e = false →
  extract_imports_from_python_file ast_parse read_text file_path = ([], Raise e).
Proof.
  intros Hread He. unfold extract_imports_from_python_file. by rewrite Hread, He.
Qed.

(** C7: when reading the file raises [FileNotFoundError] or
    [UnicodeDecodeError], the file adapter prints one warning with the path
    in it and returns the path with an empty set; it does not raise. *)
Theorem unreadable_file_yields_empty (file_path : string) (e : exn) :
  read_text file_path = Raise e →
  issubclass (exn_cls e) FileNotFoundError = true
    ∨ issubclass (exn_cls e) UnicodeDecodeError = true →
  extract_imports_from_python_file ast_parse read_text file_path
  = ([ "  Warning: Could not read " +:+ file_path +:+ ": " +:+ exn_str e ],
     Ok (Extraction file_path ∅)).
Proof.
  intros Hread He. unfold extract_imports_from_python_file, caught_by.
  rewrite Hread. simpl. destruct He as [-> | ->]; [done|].
  by rewrite orb_true_r.
Qed.

(** C8: a notebook document none of whose cells is a code cell yields
    the path with an empty set, and prints nothing. *)
Theorem notebook_without_code_yields_empty
    (notebook_path : string) (notebook : json) (cells : list json) :
  load_json notebook_path = Ok notebook →
  notebook_cells notebook cells →
  Forall non_code_cell cells →
  extract_imports_from_notebook ast_parse load_json notebook_path
  = ([], Ok (Extraction notebook_path ∅)).
Proof.
  intros Hload (items & -> & Hcells) Hnon.
  unfold extract_imports_from_notebook. rewrite Hload. simpl.
  assert (default (JList []) (dict_lookup items "cells") = JList cells) as ->.
  { by destruct Hcells as [-> | [-> ->]]. }
  simpl. by rewrite for_each_non_code.
Qed.

End Adapter_properties.

Lemma unreadable_file_yields_empty_witness :
  sample_read_text "src/gone.py" = Raise sample_missing
  ∧ (issubclass (exn_cls sample_missing) FileNotFoundError = true
     ∨ issubclass (exn_cls sample_missing) UnicodeDecodeError = true)
  ∧ extract_imports_from_python_file sample_parse sample_read_text "src/gone.py"
    = ([ "  Warning: Could not read src/gone.py: [Errno 2] No such file or directory: 'src/gone.py'" ],
       Ok (Extraction "src/gone.py" ∅)).
Proof.
  split; [reflexivity|]. split; [left; reflexivity|].
  apply (unreadable_file_yields_empty sample_parse sample_read_text
           "src/gone.py" sample_missing); [reflexivity|left; reflexivity].
Defined.

Lemma notebook_without_code_yields_empty_witness :
  sample_load_json "notebooks/notes.ipynb" = Ok sample_notebook
  ∧ notebook_cells sample_notebook sample_cells
  ∧ Forall non_code_cell sample_cells
  ∧ extract_imports_from_notebook sample_parse sample_load_json "notebooks/notes.ipynb"
    = ([], Ok (Extraction "notebooks/notes.ipynb" ∅)).
Proof.
  assert (Hcells : notebook_cells sample_notebook sample_cells).
  { eexists. split; [reflexivity|]. left. reflexivity. }
  assert (Hnon : Forall non_code_cell sample_cells).
  { repeat constructor; eexists; (split; [reflexivity|]); simpl; discriminate. }
  split; [reflexivity|]. split; [exact Hcells|]. split; [exact Hnon|].
  apply (notebook_without_code_yields_empty sample_parse sample_load_json
           "notebooks/notes.ipynb" sample_notebook sample_cells);
    [reflexivity|exact Hcells|exact Hnon].
Defined.
